(** * test-crawler/global_settings.py: the crawler's configuration module

    The module is a sequence of top-level statements executed once, when it
    is imported: one [import], four assignments of literals and one
    assignment of the result of [os.getenv].  It is embedded as a
    computation in a small state-and-exception monad over the module's
    namespace, so that "import succeeds", "a name is bound to this value"
    and "the environment is read once" are statements about a run. *)

From stdpp Require Import gmap strings list fin_maps.
From Stdlib Require Import ZArith Ascii String.

Local Open Scope string_scope.
Local Open Scope Z_scope.

(** ** The fragment of the Python runtime the module uses *)

Module Py.

(** Objects the module handles: [None], [str], a [dict] from [str] to [str]
    and a module object. *)
Inductive value :=
| VNone
| VStr (s : string)
| VDict (d : gmap string string)
| VModule (name : string).

#[global] Instance value_eq_dec : EqDecision value.
Proof. solve_decision. Defined.

(** Exceptions the fragment can raise. *)
Inductive exn :=
| NameError (name : string)
| AttributeError (attr : string)
| TypeError (msg : string)
| ModuleNotFoundError (name : string).

(** Effects visible outside the interpreter.  [EvFile] and [EvNet] are what
    [open] and an HTTP request of the crawler would record; no primitive
    below emits them. *)
Inductive event :=
| EvImport (name : string)
| EvGetenv (key : string)
| EvFile (path : string)
| EvNet (url : string).

Definition is_getenv (e : event) : bool :=
  match e with EvGetenv _ => true | _ => false end.

Definition is_file_or_net (e : event) : bool :=
  match e with EvFile _ | EvNet _ => true | _ => false end.

(** The module's namespace (the names its statements bind; the entries the
    interpreter itself puts there, such as [__name__], are left out) and the
    effects so far. *)
Record state := State {
  globals : gmap string value;
  trace : list event
}.

(** A namespace before any statement has run.  The interpreter's own
    entries are not represented, so reads of names that start with an
    underscore are outside the model. *)
Definition initial : state := State ∅ [].

Inductive result (A : Type) :=
| Ok (a : A)
| Raise (e : exn).
Arguments Ok {A} a.
Arguments Raise {A} e.

(** A computation reads the process environment ([os.environ], a mapping
    from names to strings), updates the state, and returns or raises. *)
Definition M (A : Type) : Type :=
  gmap string string → state → result (A * state).

Definition ret {A} (a : A) : M A := λ _ s, Ok (a, s).

Definition bind {A B} (m : M A) (k : A → M B) : M B :=
  λ env s, match m env s with
           | Ok (a, s') => k a env s'
           | Raise e => Raise e
           end.

Definition raise {A} (e : exn) : M A := λ _ _, Raise e.

Definition emit (e : event) : M unit :=
  λ _ s, Ok (tt, State (globals s) (trace s ++ [e])).

Declare Scope py_scope.
Delimit Scope py_scope with py.
Notation "x <- m ;; k" := (bind m (λ x, k))
  (at level 100, m at next level, right associativity) : py_scope.
Notation "m ;; k" := (bind m (λ _, k))
  (at level 100, right associativity) : py_scope.
Local Open Scope py_scope.

(** [name = v] at module level. *)
Definition store_name (name : string) (v : value) : M unit :=
  λ _ s, Ok (tt, State (<[name := v]> (globals s)) (trace s)).

(** Reading a global name; an unbound name raises [NameError]. *)
Definition load_name (name : string) : M value :=
  λ _ s, match globals s !! name with
         | Some v => Ok (v, s)
         | None => Raise (NameError name)
         end.

(** [import name]: only the standard module [os] is known to the fragment;
    the statement binds the module object to its name.  The builtins are
    taken to be the interpreter's: the lookup of [__import__] through the
    namespace's [__builtins__] is not modelled. *)
Definition import_ (name : string) : M unit :=
  if decide (name = "os")
  then (emit (EvImport name) ;; store_name name (VModule name))
  else raise (ModuleNotFoundError name).

(** The Python object for an optional string. *)
Definition str_or_none (o : option string) : value :=
  match o with
  | Some v => VStr v
  | None => VNone
  end.

(** [os.getenv(key)] with the default [default=None]: the value of
    [os.environ] at [key], or [None] when the key is missing. *)
Definition getenv (key : string) : M value :=
  λ env s, Ok (str_or_none (env !! key),
               State (globals s) (trace s ++ [EvGetenv key])).

(** [obj.meth(args)] for the one method the module calls. *)
Definition call_method (obj : value) (meth : string) (args : list value)
  : M value :=
  match obj with
  | VModule m =>
      if decide (m = "os" ∧ meth = "getenv") then
        match args with
        | [VStr key] => getenv key
        | _ => raise (TypeError "str expected")
        end
      else raise (AttributeError meth)
  | _ => raise (AttributeError meth)
  end.

(** Reading an attribute of the imported module from outside:
    [global_settings.NAME]. *)
Definition getattr (name : string) : M value :=
  λ _ s, match globals s !! name with
         | Some v => Ok (v, s)
         | None => Raise (AttributeError name)
         end.

(** [int(s)] on a string of ASCII decimal digits (no sign, blanks or
    underscores); [None] stands for [ValueError]. *)
Definition digit_of (c : ascii) : option Z :=
  let n := Z.of_N (N_of_ascii c) in
  if (48 <=? n) && (n <=? 57) then Some (n - 48) else None.

Fixpoint parse_digits (acc : Z) (s : string) : option Z :=
  match s with
  | EmptyString => Some acc
  | String c s' =>
      match digit_of c with
      | Some d => parse_digits (10 * acc + d) s'
      | None => None
      end
  end.

Definition int_of_str (s : string) : option Z :=
  match s with
  | EmptyString => None
  | _ => parse_digits 0 s
  end.

End Py.

Import Py.
Local Open Scope py_scope.

(** ** The module *)

Module global_settings.

(** The statements of the file, in order. *)
Definition body : M unit :=
  import_ "os" ;;
  store_name "REPO" (VStr "dapr/dapr") ;;
  store_name "WORKFLOW_NAME" (VStr "dapr-test.yml") ;;
  (os <- load_name "os" ;;
   tok <- call_method os "getenv" [VStr "GITHUB_TOKEN"] ;;
   store_name "ACCESS_TOKEN" tok) ;;
  store_name "GITHUB_API_PARAMETER" (VDict {["per_page" := "100"]}) ;;
  store_name "OUTPUT_TARGET" (VStr "log.txt").

(** Importing the module in a process whose environment is [env]: the body
    runs once, from the empty namespace. *)
Definition load (env : gmap string string) : result state :=
  match body env initial with
  | Ok (_, s) => Ok s
  | Raise e => Raise e
  end.

(** The accessors of the configuration contract are reads of the module's
    attributes. *)
Definition get_repository : M value := getattr "REPO".
Definition get_workflow_name : M value := getattr "WORKFLOW_NAME".
Definition get_access_token : M value := getattr "ACCESS_TOKEN".
Definition get_request_parameters : M value := getattr "GITHUB_API_PARAMETER".
Definition get_output_target : M value := getattr "OUTPUT_TARGET".




(** What a consumer observes: the module is imported under [env], then the
    computation [m] runs in the resulting process. *)
Definition observe {A} (env : gmap string string) (m : M A) : result A :=
  match load env with
  | Ok s => match m env s with
            | Ok (a, _) => Ok a
            | Raise e => Raise e
            end
  | Raise e => Raise e
  end.

(** The five values of a loaded configuration, in the order of the file. *)
Definition configuration (env : gmap string string)
  : result (value * value * value * value * value) :=
  observe env
    (r <- get_repository ;; w <- get_workflow_name ;;
     t <- get_access_token ;; p <- get_request_parameters ;;
     o <- get_output_target ;; ret (r, w, t, p, o)).

End global_settings.

Import global_settings.

(** ** The shape of a repository identifier, as an executable check *)

Module Invariant.

Fixpoint count_char (c : ascii) (s : string) : nat :=
  match s with
  | EmptyString => O
  | String a s' => (if Ascii.eqb a c then 1 else 0) + count_char c s'
  end%nat.

(** [s.split(c)]: the segments of [s] between occurrences of [c]. *)
Fixpoint split_char (c : ascii) (s : string) : list string :=
  match s with
  | EmptyString => [EmptyString]
  | String a s' =>
      if Ascii.eqb a c then EmptyString :: split_char c s'
      else match split_char c s' with
           | w :: ws => String a w :: ws
           | [] => [String a EmptyString]
           end
  end.

Definition nonempty (s : string) : bool :=
  match s with EmptyString => false | _ => true end.

(** ["<owner>/<name>"]: one separator, something on both sides. *)
Definition repo_ok (r : string) : bool :=
  match split_char "/" r with
  | [owner; name] => nonempty owner && nonempty name
  | _ => false
  end.

End Invariant.

Import Invariant.

(** ** Concrete inputs *)

(** Two environments with the same token; the first has one more
    variable. *)
Definition env_with_home : gmap string string :=
  <["HOME" := "/root"]> {["GITHUB_TOKEN" := "ghp_example123"]}.

Definition env_token_only : gmap string string :=
  {["GITHUB_TOKEN" := "ghp_example123"]}.


(** The names the statements of the file bind, in the order of the file. *)
Definition module_names : gset string :=
  {["os"; "REPO"; "WORKFLOW_NAME"; "ACCESS_TOKEN"; "GITHUB_API_PARAMETER";
    "OUTPUT_TARGET"]}.

(** Names that start with an underscore.  The entries the interpreter
    keeps in a module ([__name__], [__doc__], [__file__], [__spec__],
    [__builtins__], ...) and the attributes of the module type are all of
    this kind; the namespace of the model does not hold them. *)
Definition is_underscored (name : string) : bool :=
  match name with
  | String c _ => Ascii.eqb c "_"
  | EmptyString => false
  end.

(** A namespace in which no such name was rebound: the interpreter's
    entries, [__builtins__] among them, are as the interpreter set them. *)
Definition ordinary (s : state) : Prop :=
  ∀ name, is_underscored name = true → globals s !! name = None.

(** A namespace left by earlier code: [os] bound to a string, and one name
    the module does not know. *)
Definition used_namespace : state :=
  State (<["os" := VStr "shadow"]> {["EXTRA" := VStr "kept"]})
    [EvGetenv "HOME"].

(** ** Running the module *)

Section Run.

Implicit Types (env : gmap string string) (s : state).

(** The statements from any starting state: each of the six names is bound
    over whatever the namespace held, and the effects are appended. *)
Lemma body_run env s :
  body env s =
  Ok (tt,
      State
        (<["OUTPUT_TARGET" := VStr "log.txt"]>
         (<["GITHUB_API_PARAMETER" := VDict {["per_page" := "100"]}]>
          (<["ACCESS_TOKEN" := str_or_none (env !! "GITHUB_TOKEN")]>
           (<["WORKFLOW_NAME" := VStr "dapr-test.yml"]>
            (<["REPO" := VStr "dapr/dapr"]>
             (<["os" := VModule "os"]> (globals s)))))))
        (trace s ++ [EvImport "os"; EvGetenv "GITHUB_TOKEN"])).
Proof.
  unfold body, bind, import_, emit, store_name, load_name, call_method,
    getenv. simpl.
  rewrite !lookup_insert_ne by done. rewrite lookup_insert_eq. simpl.
  by rewrite <- app_assoc.
Qed.

(** The run of an import: no statement raises, the namespace holds the six
    names, and the effects are the import and one environment read. *)
Lemma load_run env :
  load env =
  Ok (State
        (<["OUTPUT_TARGET" := VStr "log.txt"]>
         (<["GITHUB_API_PARAMETER" := VDict {["per_page" := "100"]}]>
          (<["ACCESS_TOKEN" := str_or_none (env !! "GITHUB_TOKEN")]>
           (<["WORKFLOW_NAME" := VStr "dapr-test.yml"]>
            (<["REPO" := VStr "dapr/dapr"]>
             (<["os" := VModule "os"]> ∅))))))
        [EvImport "os"; EvGetenv "GITHUB_TOKEN"]).
Proof. unfold load. by rewrite body_run. Qed.

(** The token a consumer sees is the environment's entry, as an object. *)
Lemma observe_get_access_token env :
  observe env get_access_token = Ok (str_or_none (env !! "GITHUB_TOKEN")).
Proof. reflexivity. Qed.



End Run.

(** ** Facts about the invariant checks *)

Section Split.

Variable c : ascii.

Lemma split_char_not_nil (s : string) : split_char c s ≠ [].
Proof.
  destruct s as [|a s]; simpl; [discriminate|].
  destruct (Ascii.eqb a c); [discriminate|].
  destruct (split_char c s); discriminate.
Qed.

(** A single segment is the whole string, and it has no separator. *)
Lemma split_char_one (s w : string) :
  split_char c s = [w] → s = w ∧ count_char c s = 0%nat.
Proof.
  revert w. induction s as [|a s IH]; intros w; simpl.
  - intros [= <-]. done.
  - destruct (Ascii.eqb a c).
    + intros [= _ Hnil]. by apply split_char_not_nil in Hnil.
    + destruct (split_char c s) as [|w' ws] eqn:Hs.
      * by apply split_char_not_nil in Hs.
      * intros [= <- ->]. destruct (IH w' eq_refl) as [-> ->]. done.
Qed.

(** Two segments: the string is the first, the separator, the second, and
    the separator occurs once. *)
Lemma split_char_two (s o n : string) :
  split_char c s = [o; n] →
  s = o +:+ String c n ∧ count_char c s = 1%nat.
Proof.
  revert o. induction s as [|a s IH]; intros o; simpl.
  - discriminate.
  - destruct (Ascii.eqb a c) eqn:Hac.
    + intros [= <- Hn]. apply Ascii.eqb_eq in Hac as ->.
      destruct (split_char_one _ _ Hn) as [-> ->]. done.
    + destruct (split_char c s) as [|w' ws] eqn:Hs.
      * by apply split_char_not_nil in Hs.
      * intros [= <- ->]. destruct (IH w' eq_refl) as [-> ->]. done.
Qed.

End Split.

(** What [repo_ok] checks: exactly one ['/'], an owner before it and a name
    after it, neither empty. *)
Lemma repo_ok_shape (r : string) :
  repo_ok r = true →
  count_char "/" r = 1%nat ∧
  ∃ owner name, r = owner +:+ "/" +:+ name ∧ owner ≠ "" ∧ name ≠ "".
Proof.
  unfold repo_ok.
  destruct (split_char "/" r) as [|o [|n [|? ?]]] eqn:Hs; try discriminate.
  intros [Ho Hn]%andb_prop.
  destruct (split_char_two _ _ _ _ Hs) as [-> Hc].
  split; [done|]. exists o, n.
  split; [done|]. split; [by destruct o | by destruct n].
Qed.

(** ** The configuration contract *)

Section Contract.

Implicit Types (env : gmap string string).

(** C1. For every environment, [get_access_token] returns the value of
    [GITHUB_TOKEN] unchanged when the variable is set (so ["ghp_example123"]
    comes back as ["ghp_example123"]) and [None] when it is unset; [None] is
    not the empty string. *)
Theorem get_access_token_env env :
  match env !! "GITHUB_TOKEN" with
  | Some v => observe env get_access_token = Ok (VStr v)
  | None => observe env get_access_token = Ok VNone
  end
  ∧ observe (<["GITHUB_TOKEN" := "ghp_example123"]> env) get_access_token
    = Ok (VStr "ghp_example123")
  ∧ VNone ≠ VStr "".
Proof.
  split; [|split].
  - rewrite observe_get_access_token.
    by destruct (env !! "GITHUB_TOKEN").
  - by rewrite observe_get_access_token, lookup_insert_eq.
  - discriminate.
Qed.

(** C2. [get_repository] returns a string with exactly one ['/'], a
    non-empty owner before it and a non-empty name after it. *)
Theorem get_repository_shape env :
  ∃ r owner name,
    observe env get_repository = Ok (VStr r)
    ∧ count_char "/" r = 1%nat
    ∧ r = owner +:+ "/" +:+ name ∧ owner ≠ "" ∧ name ≠ "".
Proof.
  destruct (repo_ok_shape "dapr/dapr" eq_refl) as (Hc & o & n & Hr & Ho & Hn).
  exists "dapr/dapr", o, n. done.
Qed.

(** C3. [get_request_parameters] has an entry ["per_page"] whose value
    parses as an integer [n] with [0 < n <= 100]. *)
Theorem get_request_parameters_page_size env :
  ∃ d v n,
    observe env get_request_parameters = Ok (VDict d)
    ∧ d !! "per_page" = Some v
    ∧ int_of_str v = Some n
    ∧ 0 < n ∧ n ≤ 100.
Proof.
  exists {["per_page" := "100"]}, "100", 100.
  split; [reflexivity|]. split; [reflexivity|]. split; [reflexivity|]. lia.
Qed.

(** C4. The defaults: ["dapr/dapr"], ["dapr-test.yml"], ["log.txt"]. *)
Theorem default_configuration env :
  observe env get_repository = Ok (VStr "dapr/dapr")
  ∧ observe env get_workflow_name = Ok (VStr "dapr-test.yml")
  ∧ observe env get_output_target = Ok (VStr "log.txt").
Proof. repeat split. Qed.

(** C5. Importing the module succeeds in every environment; without
    [GITHUB_TOKEN] the import still succeeds and the token is the value
    [None]. *)
Theorem load_never_fails env :
  (∃ s, load env = Ok s)
  ∧ (∀ e, load env ≠ Raise e)
  ∧ (∃ s, load (delete "GITHUB_TOKEN" env) = Ok s)
  ∧ observe (delete "GITHUB_TOKEN" env) get_access_token = Ok VNone.
Proof.
  split; [|split; [|split]].
  - rewrite load_run. eauto.
  - intros e. rewrite load_run. discriminate.
  - rewrite load_run. eauto.
  - by rewrite observe_get_access_token, lookup_delete_eq.
Qed.


(** C8. Two imports under environments that agree on [GITHUB_TOKEN] end in
    the same state and give the same five values; the effects of an import
    are the binding of [os] and one read of [GITHUB_TOKEN], with no file or
    network operation. *)
Theorem load_deterministic env1 env2 :
  env1 !! "GITHUB_TOKEN" = env2 !! "GITHUB_TOKEN" →
  load env1 = load env2
  ∧ configuration env1 = configuration env2
  ∧ ∃ s, load env1 = Ok s
         ∧ trace s = [EvImport "os"; EvGetenv "GITHUB_TOKEN"]
         ∧ List.filter is_getenv (trace s) = [EvGetenv "GITHUB_TOKEN"]
         ∧ List.filter is_file_or_net (trace s) = [].
Proof.
  intros Htok. split; [|split].
  - rewrite !load_run. by rewrite Htok.
  - change (configuration env1)
      with (Ok (A := value * value * value * value * value)
              (VStr "dapr/dapr", VStr "dapr-test.yml",
               str_or_none (env1 !! "GITHUB_TOKEN"),
               VDict {["per_page" := "100"]}, VStr "log.txt")).
    by rewrite Htok.
  - rewrite load_run. eexists. split; [reflexivity|].
    repeat split.
Qed.

(** C9. The repository, the workflow name, the request parameters and the
    output target are the same under any two environments; the token is a
    function of the environment's entry for [GITHUB_TOKEN] alone, and does
    vary with it. *)
Theorem settings_noninterference env1 env2 :
  observe env1 get_repository = observe env2 get_repository
  ∧ observe env1 get_workflow_name = observe env2 get_workflow_name
  ∧ observe env1 get_request_parameters = observe env2 get_request_parameters
  ∧ observe env1 get_output_target = observe env2 get_output_target
  ∧ observe env1 get_access_token
    = Ok (str_or_none (env1 !! "GITHUB_TOKEN"))
  ∧ observe (<["GITHUB_TOKEN" := "a"]> env1) get_access_token
    ≠ observe (<["GITHUB_TOKEN" := "b"]> env2) get_access_token.
Proof.
  repeat split.
  rewrite !observe_get_access_token, !lookup_insert_eq. discriminate.
Qed.

(** C10. With [GITHUB_TOKEN] set to the empty string the token is the empty
    string, a [str]; with the variable unset it is [None]; the two
    differ. *)
Theorem get_access_token_empty env :
  observe (<["GITHUB_TOKEN" := ""]> env) get_access_token = Ok (VStr "")
  ∧ observe (delete "GITHUB_TOKEN" env) get_access_token = Ok VNone
  ∧ observe (<["GITHUB_TOKEN" := ""]> env) get_access_token
    ≠ observe (delete "GITHUB_TOKEN" env) get_access_token.
Proof.
  rewrite !observe_get_access_token, lookup_insert_eq, lookup_delete_eq.
  repeat split. discriminate.
Qed.

End Contract.

(** ** Concrete runs *)


(** C8 at two environments that differ outside [GITHUB_TOKEN]. *)
Lemma load_deterministic_witness :
  env_with_home !! "HOME" ≠ env_token_only !! "HOME"
  ∧ load env_with_home = load env_token_only
  ∧ configuration env_with_home = configuration env_token_only
  ∧ ∃ s, load env_with_home = Ok s
         ∧ trace s = [EvImport "os"; EvGetenv "GITHUB_TOKEN"]
         ∧ List.filter is_getenv (trace s) = [EvGetenv "GITHUB_TOKEN"]
         ∧ List.filter is_file_or_net (trace s) = [].
Proof.
  split.
  - vm_compute. discriminate.
  - apply (load_deterministic env_with_home env_token_only).
    vm_compute. reflexivity.
Defined.

(** ** The namespace of the module, and running its statements again *)

Section Namespace.

Implicit Types (env : gmap string string) (s : state).

(** None of the six names starts with an underscore. *)
Lemma module_names_plain name :
  name ∈ module_names → is_underscored name = false.
Proof.
  unfold module_names. set_unfold. intros H. by destruct_or!; subst name.
Qed.

(** X1. After the import, in every environment, each of the six names
    reads as a value ([ACCESS_TOKEN] too, token or not), and every other
    name that does not start with an underscore raises [AttributeError]
    with that name. *)
Theorem module_namespace env name :
  is_underscored name = false →
  ∃ s,
    load env = Ok s
    ∧ (name ∈ module_names →
       ∃ v, ∀ env', getattr name env' s = Ok (v, s))
    ∧ (name ∉ module_names →
       ∀ env', getattr name env' s = Raise (AttributeError name)).
Proof.
  intros _. rewrite load_run. eexists. split; [reflexivity|].
  unfold module_names, getattr. simpl. split; intros Hname.
  - set_unfold in Hname.
    destruct_or!; subst name; eexists; intros env'; by simplify_map_eq.
  - set_unfold in Hname. intros env'.
    rewrite !lookup_insert_ne, lookup_empty; [done|..];
      intros <-; apply Hname; tauto.
Qed.

(** X2. Run in a namespace that already holds bindings of ordinary names (a
    reload), the statements succeed all the same: the six names end up
    bound as after a fresh import under the same environment, whatever they
    were bound to before, every other name keeps its binding, the namespace
    stays ordinary, and the effects of one import are appended. *)
Theorem body_any_namespace env s :
  ordinary s →
  ∃ s' s0,
    body env s = Ok (tt, s')
    ∧ load env = Ok s0
    ∧ (∀ name, name ∈ module_names →
               globals s' !! name = globals s0 !! name)
    ∧ (∀ name, name ∉ module_names →
               globals s' !! name = globals s !! name)
    ∧ ordinary s'
    ∧ trace s' = (trace s ++ trace s0)%list.
Proof.
  intros Hord. rewrite body_run, load_run. do 2 eexists.
  split; [reflexivity|]. split; [reflexivity|]. simpl.
  assert (Hout : ∀ name, name ∉ module_names →
    <["OUTPUT_TARGET" := VStr "log.txt"]>
      (<["GITHUB_API_PARAMETER" := VDict {["per_page" := "100"]}]>
       (<["ACCESS_TOKEN" := str_or_none (env !! "GITHUB_TOKEN")]>
        (<["WORKFLOW_NAME" := VStr "dapr-test.yml"]>
         (<["REPO" := VStr "dapr/dapr"]>
          (<["os" := VModule "os"]> (globals s)))))) !! name
    = globals s !! name).
  { intros name Hname. unfold module_names in Hname. set_unfold in Hname.
    rewrite !lookup_insert_ne; [done|..]; intros <-; apply Hname; tauto. }
  split; [|split; [exact Hout|split; [|reflexivity]]].
  - intros name Hname. unfold module_names in Hname. set_unfold in Hname.
    destruct_or!; subst name; by simplify_map_eq.
  - intros name Hu. simpl. rewrite Hout; [by apply Hord|].
    intros Hin. apply module_names_plain in Hin. congruence.
Qed.

(** X3. Importing under one environment and then running the statements
    again under another leaves the namespace a fresh import under the second
    environment gives: the token is the second environment's, nothing of the
    first run stays.  The environment has then been read twice. *)
Theorem body_twice env1 env2 :
  ∃ s1 s2 s0,
    load env1 = Ok s1
    ∧ body env2 s1 = Ok (tt, s2)
    ∧ load env2 = Ok s0
    ∧ globals s2 = globals s0
    ∧ (∀ env', get_access_token env' s2
               = Ok (str_or_none (env2 !! "GITHUB_TOKEN"), s2))
    ∧ trace s2 = (trace s1 ++ trace s0)%list
    ∧ List.filter is_getenv (trace s2)
      = [EvGetenv "GITHUB_TOKEN"; EvGetenv "GITHUB_TOKEN"].
Proof.
  rewrite !load_run. do 3 eexists. split; [reflexivity|].
  rewrite body_run. split; [reflexivity|]. split; [reflexivity|]. simpl.
  split; [|split; [|split; reflexivity]].
  - apply map_eq. intros name.
    destruct (decide (name ∈ module_names)) as [Hname|Hname];
      unfold module_names in Hname; set_unfold in Hname.
    + destruct_or!; subst name; by simplify_map_eq.
    + rewrite !lookup_insert_ne; [done|..]; intros <-; apply Hname; tauto.
  - intros env'. unfold get_access_token, getattr. simpl.
    by simplify_map_eq.
Qed.

End Namespace.

(** X1 at a misspelt attribute. *)
Lemma module_namespace_witness :
  ∃ s,
    load ∅ = Ok s
    ∧ ("TOKEN" ∈ module_names →
       ∃ v, ∀ env', getattr "TOKEN" env' s = Ok (v, s))
    ∧ ("TOKEN" ∉ module_names →
       ∀ env', getattr "TOKEN" env' s = Raise (AttributeError "TOKEN")).
Proof. apply (module_namespace ∅ "TOKEN"). reflexivity. Defined.

Lemma used_namespace_ordinary : ordinary used_namespace.
Proof.
  intros name Hu. unfold used_namespace. simpl.
  rewrite lookup_insert_ne by (intros <-; discriminate).
  apply lookup_singleton_ne. intros <-. discriminate.
Defined.

(** X2 at a namespace where [os] was bound to a string. *)
Lemma body_any_namespace_witness :
  ∃ s' s0,
    body env_token_only used_namespace = Ok (tt, s')
    ∧ load env_token_only = Ok s0
    ∧ (∀ name, name ∈ module_names →
               globals s' !! name = globals s0 !! name)
    ∧ (∀ name, name ∉ module_names →
               globals s' !! name = globals used_namespace !! name)
    ∧ ordinary s'
    ∧ trace s' = (trace used_namespace ++ trace s0)%list.
Proof.
  apply (body_any_namespace env_token_only used_namespace).
  exact used_namespace_ordinary.
Defined.
